(** * LTC2942 gas-gauge driver: a shallow embedding of [LTC2942.c]

    The driver talks to the chip through two platform services,
    [HAL_I2C_readWrite] (one addressed bus transaction) and [usleep].
    Both live outside the driver, so the driver is embedded once, in a
    section that abstracts over them, and is then run against a mock
    transport that keeps the chip's sixteen registers in a byte array,
    follows a scripted sequence of transaction outcomes and logs every
    bus access and every delay. *)

From Stdlib Require Import ZArith List Bool Lia.
From stdpp Require Import base list.
Import ListNotations.

#[local] Open Scope Z_scope.

(** ** Fixed-width integers

    Bytes and 16-bit words are integers in [Z]; the conversions that C
    performs on assignment are written out. *)

Definition u8 (x : Z) : Z := x mod 256.
Definition u16 (x : Z) : Z := x mod 65536.

(** Storing into an [int16_t]: the low sixteen bits, read in two's
    complement. *)
Definition i16 (x : Z) : Z :=
  let y := x mod 65536 in if y <? 32768 then y else y - 65536.

Definition is_byte (x : Z) : bool := (0 <=? x) && (x <? 256).

(** ** Constants of [LTC2942.c] *)

Definition I2C_ADDRESS : Z := 0x64.
Definition I2C_ALERT_RESPONSE : Z := 0x0C.
Definition DEVICE_ID : Z := 0x00.

Definition STATUS_REG : Z := 0x00.
Definition CONTROL_REG : Z := 0x01.
Definition ACCUM_CHARGE_MSB_REG : Z := 0x02.
Definition ACCUM_CHARGE_LSB_REG : Z := 0x03.
Definition CHARGE_THRESH_HIGH_MSB_REG : Z := 0x04.
Definition CHARGE_THRESH_HIGH_LSB_REG : Z := 0x05.
Definition CHARGE_THRESH_LOW_MSB_REG : Z := 0x06.
Definition CHARGE_THRESH_LOW_LSB_REG : Z := 0x07.
Definition VOLTAGE_MSB_REG : Z := 0x08.
Definition VOLTAGE_LSB_REG : Z := 0x09.
Definition VOLTAGE_THRESH_HIGH_REG : Z := 0x0A.
Definition VOLTAGE_THRESH_LOW_REG : Z := 0x0B.
Definition TEMPERATURE_MSB_REG : Z := 0x0C.
Definition TEMPERATURE_LSB_REG : Z := 0x0D.
Definition TEMPERATURE_THRESH_HIGH_REG : Z := 0x0E.
Definition TEMPERATURE_THRESH_LOW_REG : Z := 0x0F.

Definition AUTOMATIC_MODE : Z := 0xC0.
Definition MANUAL_VOLTAGE : Z := 0x80.
Definition MANUAL_TEMPERATURE : Z := 0x40.
Definition SLEEP_MODE : Z := 0x00.

Definition PRESCALAR_M_1 : Z := 0x00.
Definition PRESCALAR_M_2 : Z := 0x08.
Definition PRESCALAR_M_4 : Z := 0x10.
Definition PRESCALAR_M_8 : Z := 0x18.
Definition PRESCALAR_M_16 : Z := 0x20.
Definition PRESCALAR_M_32 : Z := 0x28.
Definition PRESCALAR_M_64 : Z := 0x30.
Definition PRESCALAR_M_128 : Z := 0x38.

Definition ALERT_MODE : Z := 0x04.
Definition CHARGE_COMPLETE_MODE : Z := 0x02.
Definition DISABLE_ALCC_PIN : Z := 0x00.

Definition SHUTDOWN_MODE : Z := 0x01.

(** The fields of a control-register byte, as the command codes above
    lay them out: two mode bits, three prescaler bits, two ALCC bits and
    the shutdown bit. *)
Definition mode_field (v : Z) : Z := Z.land v 0xC0.
Definition prescaler_field (v : Z) : Z := Z.land v 0x38.
Definition alcc_field (v : Z) : Z := Z.land v 0x06.
Definition shutdown_field (v : Z) : Z := Z.land v 0x01.

(** ** The driver *)

Section Driver.

(** [dev_id] comes from [hal_subsystem.h]; the driver only passes it
    on.  [bus] is the state of everything behind the transport. *)
Variable dev_id : Type.
Variable bus : Type.

Definition io (A : Type) : Type := bus -> A * bus.

Definition ret {A : Type} (a : A) : io A := fun s => (a, s).

Definition bind {A B : Type} (m : io A) (k : A -> io B) : io B :=
  fun s => let (a, s') := m s in k a s'.

#[local] Notation "'let*' x ':=' m 'in' k" := (bind m (fun x => k))
  (at level 10, x pattern, m at level 100, k at level 200,
   only parsing).

(** [HAL_I2C_readWrite id tx tx_len rx rx_len]: the transmit buffer
    and its length, the receive buffer as the caller holds it before
    the call and its length ([NULL], 0 is the empty buffer).  The
    result is the success flag and the receive buffer after the call. *)
Variable HAL_I2C_readWrite :
  dev_id -> list Z -> Z -> list Z -> Z -> io (bool * list Z).

Variable usleep : Z -> io unit.

(** [res] is the byte [*res] holds on entry; the byte it holds on
    return comes back next to the flag. *)
Definition ltc_readRegister (id : dev_id) (reg : Z) (res : Z)
  : io (bool * Z) :=
  let* (res1, rx) := HAL_I2C_readWrite id [u8 reg] 1 [res] 1 in
  ret (res1, hd res rx).

Definition ltc_writeRegister (id : dev_id) (reg : Z) (res : Z) : io bool :=
  let tx_buf := [u8 reg; u8 res] in
  let* (res1, _) := HAL_I2C_readWrite id tx_buf 2 [] 0 in
  ret res1.

Definition ltc_readDeviceID (id : dev_id) : io bool :=
  let res := 0 in
  let* (_, res) := ltc_readRegister id STATUS_REG res in
  ret (Z.land res 0xC0 =? DEVICE_ID).

Definition ltc_init (id : dev_id) : io unit :=
  let* _ := ltc_writeRegister id CONTROL_REG 0xC8 in
  usleep 1.

Definition ltc_reset_charge (id : dev_id) : io unit :=
  let reg_save := 0 in
  let* (_, reg_save) := ltc_readRegister id CONTROL_REG reg_save in
  let* _ := ltc_writeRegister id CONTROL_REG (Z.lor reg_save SHUTDOWN_MODE) in
  let* _ := ltc_writeRegister id ACCUM_CHARGE_MSB_REG 0x00 in
  let* _ := ltc_writeRegister id ACCUM_CHARGE_LSB_REG 0x00 in
  let* _ := ltc_writeRegister id CONTROL_REG reg_save in
  ret tt.

(** The three measurement reads declare [uint8_t adc_code[2]] without
    initialising it.  [adc_code] below is what the two bytes hold on
    entry, [(adc_code[0], adc_code[1])]; the second component of the
    result is what the output parameter holds on return. *)
Definition ltc_code_to_voltage (id : dev_id) (adc_code : Z * Z)
  : io (bool * Z) :=
  let* (res1, adc_code1) :=
    ltc_readRegister id VOLTAGE_MSB_REG (snd adc_code) in
  let* _ := usleep 1 in
  let* (res2, adc_code0) :=
    ltc_readRegister id VOLTAGE_LSB_REG (fst adc_code) in
  let* _ := usleep 1 in
  let voltage := u16 (Z.lor (Z.shiftl adc_code1 8) adc_code0) in
  let res3 := res1 && res2 in
  ret (res3, voltage).

Definition ltc_temp (id : dev_id) (adc_code : Z * Z) : io (bool * Z) :=
  let* (res1, adc_code1) :=
    ltc_readRegister id TEMPERATURE_MSB_REG (snd adc_code) in
  let* _ := usleep 1 in
  let* (res2, adc_code0) :=
    ltc_readRegister id TEMPERATURE_LSB_REG (fst adc_code) in
  let* _ := usleep 1 in
  let temperature := i16 (u16 (Z.lor (Z.shiftl adc_code1 8) adc_code0)) in
  ret (res1 && res2, temperature).

Definition ltc_capacity (id : dev_id) (adc_code : Z * Z) : io (bool * Z) :=
  let* (res1, adc_code1) :=
    ltc_readRegister id ACCUM_CHARGE_MSB_REG (snd adc_code) in
  let* _ := usleep 1 in
  let* (res2, adc_code0) :=
    ltc_readRegister id ACCUM_CHARGE_LSB_REG (fst adc_code) in
  let* _ := usleep 1 in
  let cap := u16 (Z.lor (Z.shiftl adc_code1 8) adc_code0) in
  ret (res1 && res2, cap).

End Driver.

Arguments ret {bus A} a.
Arguments bind {bus A B} m k.
Arguments ltc_readRegister {dev_id bus} HAL_I2C_readWrite id reg res.
Arguments ltc_writeRegister {dev_id bus} HAL_I2C_readWrite id reg res.
Arguments ltc_readDeviceID {dev_id bus} HAL_I2C_readWrite id.
Arguments ltc_init {dev_id bus} HAL_I2C_readWrite usleep id.
Arguments ltc_reset_charge {dev_id bus} HAL_I2C_readWrite id.
Arguments ltc_code_to_voltage {dev_id bus} HAL_I2C_readWrite usleep id adc_code.
Arguments ltc_temp {dev_id bus} HAL_I2C_readWrite usleep id adc_code.
Arguments ltc_capacity {dev_id bus} HAL_I2C_readWrite usleep id adc_code.

(** ** A mock transport

    What one bus access or delay looked like from outside. *)
Inductive event : Type :=
  | Read (reg : Z) (ok : bool)
  | Write (reg val : Z) (ok : bool)
  | Delay (us : Z)
  | Malformed.

(** The state behind the mock transport: the chip's registers, the
    outcomes still scripted for the coming transactions (when the script
    runs out, transactions succeed) and the log so far, oldest first. *)
Record mock : Type := Mock {
  regs : list Z;
  script : list bool;
  trace : list event
}.

(** A fresh mock: the given registers, the given script, an empty log. *)
Definition boot (rs : list Z) (s : list bool) : mock := Mock rs s [].

(** The chip has sixteen registers of one byte each. *)
Definition chip_ok (rs : list Z) : bool :=
  (length rs =? 16)%nat && forallb is_byte rs.

Definition in_range (rs : list Z) (reg : Z) : bool :=
  (0 <=? reg) && (reg <? Z.of_nat (length rs)).

Definition reg_at (rs : list Z) (reg : Z) : Z :=
  default 0 (rs !! Z.to_nat reg).

(** Modelled from the spec: [HAL_I2C_readWrite] is a platform service
    declared in [hal_functions.h], outside the driver.  The spec's
    testable properties run the driver against a mock transport that
    models the chip as a byte array indexed by register address and that
    can be configured to fail.  A one-byte write followed by a one-byte
    read returns the addressed register; a two-byte write stores the
    second byte in the register the first one addresses.  A transaction
    that fails (scripted, or addressed outside the array) changes neither
    the registers nor the receive buffer. *)
Definition mock_readWrite {dev_id : Type} (id : dev_id)
    (tx : list Z) (tx_len : Z) (rx : list Z) (rx_len : Z)
  : mock -> (bool * list Z) * mock :=
  fun w =>
    let go := hd true (script w) in
    let later := tl (script w) in
    match take (Z.to_nat tx_len) tx with
    | [reg] =>
        if rx_len =? 1 then
          let ok := go && in_range (regs w) reg in
          ((ok, if ok then [reg_at (regs w) reg] else rx),
           Mock (regs w) later (trace w ++ [Read reg ok]))
        else ((false, rx), Mock (regs w) later (trace w ++ [Malformed]))
    | [reg; val] =>
        if rx_len =? 0 then
          let ok := go && in_range (regs w) reg in
          ((ok, rx),
           Mock (if ok then <[Z.to_nat reg := val]> (regs w) else regs w)
                later (trace w ++ [Write reg val ok]))
        else ((false, rx), Mock (regs w) later (trace w ++ [Malformed]))
    | _ => ((false, rx), Mock (regs w) later (trace w ++ [Malformed]))
    end.

(** Modelled from the spec: the delay primitive is a platform service;
    the mock only logs that it was invoked, and for how long. *)
Definition mock_usleep (us : Z) : mock -> unit * mock :=
  fun w => (tt, Mock (regs w) (script w) (trace w ++ [Delay us])).

(** The scripted outcome of the [n]-th coming transaction. *)
Definition outcome (s : list bool) (n : nat) : bool := nth n s true.

(** The byte a read leaves in the caller's buffer: the register when the
    read succeeds, what the buffer held before when it fails. *)
Definition fetched (rs : list Z) (o : bool) (reg old : Z) : Z :=
  if o then reg_at rs reg else old.

(** ** Properties of a log *)

Definition is_access (e : event) : bool :=
  match e with
  | Delay _ => false
  | _ => true
  end.

(** No two bus accesses follow one another without a delay in between. *)
Fixpoint delay_separated (t : list event) : bool :=
  match t with
  | [] => true
  | a :: t' =>
      match t' with
      | [] => true
      | b :: _ => negb (is_access a && is_access b) && delay_separated t'
      end
  end.

Definition is_accumulator (reg : Z) : bool :=
  (reg =? ACCUM_CHARGE_MSB_REG) || (reg =? ACCUM_CHARGE_LSB_REG).

(** Replays a log against the control register, whose value is [ctrl]
    when the log starts: every write to a charge-accumulator register
    must find the shutdown bit set. *)
Fixpoint shutdown_guarded (ctrl : Z) (t : list event) : bool :=
  match t with
  | [] => true
  | Write reg val ok :: t' =>
      if is_accumulator reg then
        Z.testbit ctrl 0 && shutdown_guarded ctrl t'
      else if (reg =? CONTROL_REG) && ok then shutdown_guarded val t'
      else shutdown_guarded ctrl t'
  | _ :: t' => shutdown_guarded ctrl t'
  end.

(** The control-register fields the specification lists for the byte
    [ltc_init] writes: automatic mode, prescaler M = 4, charge-complete
    mode on the ALCC pin, shutdown bit clear. *)
Definition spec_init_fields (v : Z) : bool :=
  (mode_field v =? AUTOMATIC_MODE)
  && (prescaler_field v =? PRESCALAR_M_4)
  && (alcc_field v =? CHARGE_COMPLETE_MODE)
  && (shutdown_field v =? 0).

(** The bytes written to registers in a log, oldest first. *)
Definition writes (t : list event) : list (Z * Z) :=
  omap (fun e => match e with
                 | Write reg val _ => Some (reg, val)
                 | _ => None
                 end) t.

(** * Verification *)

(** ** Fixed-width arithmetic *)

Lemma is_byte_spec (x : Z) : is_byte x = true <-> 0 <= x < 256.
Proof. unfold is_byte. rewrite andb_true_iff, Z.leb_le, Z.ltb_lt. tauto. Qed.

Lemma u8_byte (x : Z) : 0 <= x < 256 -> u8 x = x.
Proof. intros H. unfold u8. apply Z.mod_small. lia. Qed.

(** A byte shares no bit with a multiple of 256. *)
Lemma land_shifted_byte (m l : Z) : 0 <= l < 256 -> Z.land (m * 256) l = 0.
Proof.
  intros Hl. apply Z.bits_inj'. intros n Hn.
  rewrite Z.land_spec, Z.bits_0.
  destruct (Z.lt_ge_cases n 8) as [Hlt | Hge].
  - change 256 with (2 ^ 8). rewrite Z.mul_pow2_bits_low by lia. reflexivity.
  - rewrite (Z.bits_above_log2 l n), andb_false_r; [reflexivity | lia |].
    destruct (Z.eq_dec l 0) as [-> | Hne]; [simpl; lia |].
    apply Z.log2_lt_pow2; [lia |].
    apply Z.lt_le_trans with (2 ^ 8); [simpl; lia |].
    apply Z.pow_le_mono_r; lia.
Qed.

(** Big-endian assembly of two bytes is [256 * msb + lsb]. *)
Lemma assemble_bytes (m l : Z) :
  0 <= m < 256 -> 0 <= l < 256 ->
  Z.lor (Z.shiftl m 8) l = m * 256 + l.
Proof.
  intros Hm Hl. rewrite Z.shiftl_mul_pow2 by lia.
  change (2 ^ 8) with 256.
  rewrite <- Z.lxor_lor by (apply land_shifted_byte; exact Hl).
  symmetry. apply Z.add_nocarry_lxor, land_shifted_byte, Hl.
Qed.

(** Setting the shutdown bit keeps a byte a byte. *)
Lemma lor_shutdown_byte (x : Z) :
  0 <= x < 256 -> 0 <= Z.lor x SHUTDOWN_MODE < 256.
Proof.
  intros Hx. unfold SHUTDOWN_MODE.
  assert (Hnn : 0 <= Z.lor x 1) by (apply Z.lor_nonneg; lia).
  split; [exact Hnn |].
  destruct (Z.eq_dec (Z.lor x 1) 0) as [-> | Hne]; [lia |].
  change 256 with (2 ^ 8). apply Z.log2_lt_pow2; [lia |].
  rewrite Z.log2_lor by lia.
  apply Z.max_lub_lt; [| simpl; lia].
  destruct (Z.eq_dec x 0) as [-> | Hx0]; [simpl; lia |].
  apply Z.log2_lt_pow2; simpl; lia.
Qed.

(** The shutdown bit is bit 0. *)
Lemma lor_shutdown_bit (x : Z) : Z.testbit (Z.lor x SHUTDOWN_MODE) 0 = true.
Proof. rewrite Z.lor_spec. apply orb_true_r. Qed.

Lemma u16_assemble (m l : Z) :
  0 <= m < 256 -> 0 <= l < 256 ->
  u16 (Z.lor (Z.shiftl m 8) l) = m * 256 + l.
Proof.
  intros Hm Hl. rewrite assemble_bytes by assumption.
  unfold u16. apply Z.mod_small. lia.
Qed.

(** ** The register array *)

Lemma chip_ok_length (rs : list Z) : chip_ok rs = true -> length rs = 16%nat.
Proof.
  unfold chip_ok. rewrite andb_true_iff. intros [H _].
  now apply Nat.eqb_eq in H.
Qed.

Lemma chip_ok_lookup (rs : list Z) (r : Z) :
  chip_ok rs = true -> 0 <= r < 16 ->
  rs !! Z.to_nat r = Some (reg_at rs r).
Proof.
  intros Hok Hr. pose proof (chip_ok_length rs Hok) as Hlen.
  unfold reg_at.
  destruct (rs !! Z.to_nat r) as [v |] eqn:E; [reflexivity |].
  apply lookup_ge_None in E. lia.
Qed.

Lemma chip_ok_byte (rs : list Z) (r : Z) :
  chip_ok rs = true -> 0 <= r < 16 -> 0 <= reg_at rs r < 256.
Proof.
  intros Hok Hr. pose proof (chip_ok_lookup rs r Hok Hr) as Hl.
  unfold chip_ok in Hok. apply andb_true_iff in Hok as [_ Hall].
  rewrite forallb_forall in Hall.
  apply is_byte_spec, Hall.
  apply list_elem_of_In, list_elem_of_lookup. eauto.
Qed.

Lemma in_range_16 (rs : list Z) (r : Z) :
  length rs = 16%nat -> 0 <= r < 16 -> in_range rs r = true.
Proof.
  intros Hlen Hr. unfold in_range. rewrite Hlen.
  apply andb_true_iff. split; [apply Z.leb_le | apply Z.ltb_lt]; lia.
Qed.

Lemma reg_at_insert_eq (rs : list Z) (r v : Z) :
  length rs = 16%nat -> 0 <= r < 16 ->
  reg_at (<[Z.to_nat r := v]> rs) r = v.
Proof.
  intros Hlen Hr. unfold reg_at.
  rewrite list_lookup_insert_eq by lia. reflexivity.
Qed.

Lemma reg_at_insert_ne (rs : list Z) (r r' v : Z) :
  0 <= r -> 0 <= r' -> r <> r' ->
  reg_at (<[Z.to_nat r := v]> rs) r' = reg_at rs r'.
Proof.
  intros Hr Hr' Hne. unfold reg_at.
  rewrite list_lookup_insert_ne by lia. reflexivity.
Qed.

(** ** One transaction against the mock *)

Section MockSteps.

Context {dev_id : Type} (id : dev_id).

Lemma read_step (rs : list Z) (s : list bool) (tr : list event) (r g : Z) :
  length rs = 16%nat -> 0 <= r < 16 ->
  ltc_readRegister mock_readWrite id r g (Mock rs s tr) =
  ((hd true s, if hd true s then reg_at rs r else g),
   Mock rs (tl s) (tr ++ [Read r (hd true s)])).
Proof.
  intros Hlen Hr.
  unfold ltc_readRegister, bind, ret, mock_readWrite.
  rewrite u8_byte by lia. cbn [regs script trace].
  change (take (Z.to_nat 1) [r]) with [r].
  change (1 =? 1) with true. cbv iota.
  rewrite (in_range_16 rs r Hlen Hr), andb_true_r.
  destruct (hd true s); reflexivity.
Qed.

Lemma write_step (rs : list Z) (s : list bool) (tr : list event) (r v : Z) :
  length rs = 16%nat -> 0 <= r < 16 -> 0 <= v < 256 ->
  ltc_writeRegister mock_readWrite id r v (Mock rs s tr) =
  (hd true s,
   Mock (if hd true s then <[Z.to_nat r := v]> rs else rs)
        (tl s) (tr ++ [Write r v (hd true s)])).
Proof.
  intros Hlen Hr Hv.
  unfold ltc_writeRegister, bind, ret, mock_readWrite.
  rewrite !u8_byte by lia. cbn [regs script trace].
  change (take (Z.to_nat 2) [r; v]) with [r; v].
  change (0 =? 0) with true. cbv iota.
  rewrite (in_range_16 rs r Hlen Hr), andb_true_r.
  reflexivity.
Qed.

Lemma written_length (rs : list Z) (o : bool) (n : nat) (v : Z) :
  length rs = 16%nat ->
  length (if o then <[n := v]> rs else rs) = 16%nat.
Proof. intros H. destruct o; [rewrite length_insert |]; exact H. Qed.

End MockSteps.

(** ** Register round trip *)

(** C8: on the mock transport that keeps the chip as a byte array
    indexed by register address, for every valid register address [r]
    and every byte [v], [ltc_writeRegister] of [v] to [r] succeeds and a
    following [ltc_readRegister] of [r] succeeds and returns [v],
    whatever the caller's byte held before. *)
Theorem write_then_read_returns_written
    {dev_id : Type} (id : dev_id) (rs : list Z) (r v g : Z) :
  chip_ok rs = true -> 0 <= r < 16 -> 0 <= v < 256 ->
  let wr := ltc_writeRegister mock_readWrite id r v (boot rs []) in
  fst wr = true /\
  fst (ltc_readRegister mock_readWrite id r g (snd wr)) = (true, v).
Proof.
  intros Hok Hr Hv. pose proof (chip_ok_length rs Hok) as Hlen.
  unfold boot. cbv zeta. rewrite write_step by assumption.
  cbn [hd tl fst snd]. split; [reflexivity |].
  rewrite read_step by (rewrite ?length_insert; assumption).
  cbn [hd fst]. rewrite reg_at_insert_eq by assumption. reflexivity.
Qed.

Lemma write_then_read_returns_written_witness :
  let rs := [0; 0x3C; 0x7F; 0xFF; 0; 0; 0; 0; 0; 0; 0; 0; 0; 0; 0; 0] in
  let wr := ltc_writeRegister mock_readWrite tt 0x0A 0xA5 (boot rs []) in
  fst wr = true /\
  fst (ltc_readRegister mock_readWrite tt 0x0A 0x11 (snd wr)) = (true, 0xA5).
Proof.
  apply (write_then_read_returns_written tt
           [0; 0x3C; 0x7F; 0xFF; 0; 0; 0; 0; 0; 0; 0; 0; 0; 0; 0; 0]
           0x0A 0xA5 0x11); [reflexivity | lia | lia].
Defined.

(** ** Charge-accumulator reset *)

Section Reset.

Context {dev_id : Type} (id : dev_id).

(** What [ltc_reset_charge] does against the mock, whatever the
    script: the five accesses, the value each write carries and the
    registers afterwards. *)
Lemma reset_charge_run (rs : list Z) (s : list bool) :
  chip_ok rs = true ->
  let o := outcome s in
  let saved := if o 0%nat then reg_at rs CONTROL_REG else 0 in
  let rs1 := if o 1%nat
             then <[Z.to_nat CONTROL_REG := Z.lor saved SHUTDOWN_MODE]> rs
             else rs in
  let rs2 := if o 2%nat then <[Z.to_nat ACCUM_CHARGE_MSB_REG := 0]> rs1
             else rs1 in
  let rs3 := if o 3%nat then <[Z.to_nat ACCUM_CHARGE_LSB_REG := 0]> rs2
             else rs2 in
  let rs4 := if o 4%nat then <[Z.to_nat CONTROL_REG := saved]> rs3
             else rs3 in
  ltc_reset_charge mock_readWrite id (boot rs s) =
  (tt, Mock rs4 (drop 5 s)
         [Read CONTROL_REG (o 0%nat);
          Write CONTROL_REG (Z.lor saved SHUTDOWN_MODE) (o 1%nat);
          Write ACCUM_CHARGE_MSB_REG 0 (o 2%nat);
          Write ACCUM_CHARGE_LSB_REG 0 (o 3%nat);
          Write CONTROL_REG saved (o 4%nat)]).
Proof.
  intros Hok. pose proof (chip_ok_length rs Hok) as Hlen.
  pose proof (chip_ok_byte rs CONTROL_REG Hok ltac:(unfold CONTROL_REG; lia))
    as Hc.
  cbv zeta.
  assert (Hsv : 0 <= (if outcome s 0 then reg_at rs CONTROL_REG else 0) < 256)
    by (destruct (outcome s 0); lia).
  assert (Hor : 0 <= Z.lor (if outcome s 0 then reg_at rs CONTROL_REG else 0)
                       SHUTDOWN_MODE < 256)
    by (apply lor_shutdown_byte; exact Hsv).
  unfold ltc_reset_charge, boot, bind, ret.
  rewrite read_step by (unfold CONTROL_REG; first [assumption | lia]).
  replace (hd true s) with (outcome s 0) by (destruct s; reflexivity).
  rewrite write_step
    by (unfold CONTROL_REG; first [assumption | lia]).
  replace (hd true (tl s)) with (outcome s 1)
    by (destruct s as [| ? [| ? ?]]; reflexivity).
  rewrite write_step
    by (unfold ACCUM_CHARGE_MSB_REG;
        first [apply written_length; assumption | lia]).
  replace (hd true (tl (tl s))) with (outcome s 2)
    by (destruct s as [| ? [| ? [| ? ?]]]; reflexivity).
  rewrite write_step
    by (unfold ACCUM_CHARGE_LSB_REG;
        first [repeat apply written_length; assumption | lia]).
  replace (hd true (tl (tl (tl s)))) with (outcome s 3)
    by (destruct s as [| ? [| ? [| ? [| ? ?]]]]; reflexivity).
  rewrite write_step
    by (unfold CONTROL_REG;
        first [repeat apply written_length; assumption | lia]).
  replace (hd true (tl (tl (tl (tl s))))) with (outcome s 4)
    by (destruct s as [| ? [| ? [| ? [| ? [| ? ?]]]]]; reflexivity).
  replace (tl (tl (tl (tl (tl s))))) with (drop 5 s)
    by (destruct s as [| ? [| ? [| ? [| ? [| ? ?]]]]]; reflexivity).
  reflexivity.
Qed.

End Reset.

(** ** Measurement reads and initialisation against the mock *)

Section Runs.

Context {dev_id : Type} (id : dev_id).

Ltac run_measurement Hlen s :=
  unfold boot, bind, ret;
  rewrite read_step by first [assumption | lia];
  cbn [mock_usleep regs script trace app];
  rewrite read_step by first [assumption | lia];
  cbn [mock_usleep regs script trace app];
  unfold fetched, outcome;
  destruct s as [| ? [| ? ?]]; reflexivity.

Lemma code_to_voltage_run (rs : list Z) (s : list bool) (g : Z * Z) :
  chip_ok rs = true ->
  let o := outcome s in
  ltc_code_to_voltage mock_readWrite mock_usleep id g (boot rs s) =
  ((o 0%nat && o 1%nat,
    u16 (Z.lor (Z.shiftl (fetched rs (o 0%nat) VOLTAGE_MSB_REG (snd g)) 8)
               (fetched rs (o 1%nat) VOLTAGE_LSB_REG (fst g)))),
   Mock rs (drop 2 s)
     [Read VOLTAGE_MSB_REG (o 0%nat); Delay 1;
      Read VOLTAGE_LSB_REG (o 1%nat); Delay 1]).
Proof.
  intros Hok. pose proof (chip_ok_length rs Hok) as Hlen. cbv zeta.
  unfold ltc_code_to_voltage, VOLTAGE_MSB_REG, VOLTAGE_LSB_REG.
  run_measurement Hlen s.
Qed.

Lemma temp_run (rs : list Z) (s : list bool) (g : Z * Z) :
  chip_ok rs = true ->
  let o := outcome s in
  ltc_temp mock_readWrite mock_usleep id g (boot rs s) =
  ((o 0%nat && o 1%nat,
    i16 (u16 (Z.lor
                (Z.shiftl (fetched rs (o 0%nat) TEMPERATURE_MSB_REG (snd g)) 8)
                (fetched rs (o 1%nat) TEMPERATURE_LSB_REG (fst g))))),
   Mock rs (drop 2 s)
     [Read TEMPERATURE_MSB_REG (o 0%nat); Delay 1;
      Read TEMPERATURE_LSB_REG (o 1%nat); Delay 1]).
Proof.
  intros Hok. pose proof (chip_ok_length rs Hok) as Hlen. cbv zeta.
  unfold ltc_temp, TEMPERATURE_MSB_REG, TEMPERATURE_LSB_REG.
  run_measurement Hlen s.
Qed.

Lemma capacity_run (rs : list Z) (s : list bool) (g : Z * Z) :
  chip_ok rs = true ->
  let o := outcome s in
  ltc_capacity mock_readWrite mock_usleep id g (boot rs s) =
  ((o 0%nat && o 1%nat,
    u16 (Z.lor
           (Z.shiftl (fetched rs (o 0%nat) ACCUM_CHARGE_MSB_REG (snd g)) 8)
           (fetched rs (o 1%nat) ACCUM_CHARGE_LSB_REG (fst g)))),
   Mock rs (drop 2 s)
     [Read ACCUM_CHARGE_MSB_REG (o 0%nat); Delay 1;
      Read ACCUM_CHARGE_LSB_REG (o 1%nat); Delay 1]).
Proof.
  intros Hok. pose proof (chip_ok_length rs Hok) as Hlen. cbv zeta.
  unfold ltc_capacity, ACCUM_CHARGE_MSB_REG, ACCUM_CHARGE_LSB_REG.
  run_measurement Hlen s.
Qed.

(** [ltc_init] needs nothing of the registers: whatever the mock
    holds, it logs one write of [0xC8] to the control register and one
    delay. *)
Lemma init_run (rs : list Z) (s : list bool) :
  let ok := hd true s && in_range rs CONTROL_REG in
  ltc_init mock_readWrite mock_usleep id (boot rs s) =
  (tt, Mock (if ok then <[Z.to_nat CONTROL_REG := 0xC8]> rs else rs)
         (tl s) [Write CONTROL_REG 0xC8 ok; Delay 1]).
Proof. reflexivity. Qed.

(** [ltc_readDeviceID] against the mock. *)
Lemma readDeviceID_run (rs : list Z) (s : list bool) :
  chip_ok rs = true ->
  ltc_readDeviceID mock_readWrite id (boot rs s) =
  (Z.land (fetched rs (outcome s 0) STATUS_REG 0) 0xC0 =? DEVICE_ID,
   Mock rs (tl s) [Read STATUS_REG (outcome s 0)]).
Proof.
  intros Hok. pose proof (chip_ok_length rs Hok) as Hlen.
  unfold ltc_readDeviceID, STATUS_REG, boot, bind, ret.
  rewrite read_step by first [assumption | lia].
  unfold fetched, outcome. destruct s; reflexivity.
Qed.

End Runs.

(** ** Claims about the charge-accumulator reset *)

(** C5: for every initial control-register value [c], running
    [ltc_reset_charge] against the byte-array transport that always
    succeeds leaves the charge-accumulator MSB and LSB registers at 0x00
    and the control register at exactly [c], so also with its shutdown
    bit as it was; reading the three registers back through
    [ltc_readRegister] returns these values. *)
Theorem reset_charge_clears_and_restores
    {dev_id : Type} (id : dev_id) (rs : list Z) (c g : Z) :
  chip_ok rs = true -> reg_at rs CONTROL_REG = c ->
  let w := snd (ltc_reset_charge mock_readWrite id (boot rs [])) in
  (reg_at (regs w) ACCUM_CHARGE_MSB_REG = 0x00
   /\ reg_at (regs w) ACCUM_CHARGE_LSB_REG = 0x00
   /\ reg_at (regs w) CONTROL_REG = c
   /\ shutdown_field (reg_at (regs w) CONTROL_REG) = shutdown_field c)
  /\ fst (ltc_readRegister mock_readWrite id ACCUM_CHARGE_MSB_REG g w)
     = (true, 0x00)
  /\ fst (ltc_readRegister mock_readWrite id ACCUM_CHARGE_LSB_REG g w)
     = (true, 0x00)
  /\ fst (ltc_readRegister mock_readWrite id CONTROL_REG g w) = (true, c).
Proof.
  intros Hok Hc. pose proof (chip_ok_length rs Hok) as Hlen.
  pose proof (reset_charge_run id rs [] Hok) as Hrun.
  cbv zeta in Hrun. cbn [outcome nth] in Hrun.
  cbv zeta. rewrite Hrun, Hc. cbn [snd regs]. clear Hrun.
  set (rs' := <[Z.to_nat CONTROL_REG := c]> _).
  assert (Hlen' : length rs' = 16%nat)
    by (unfold rs'; rewrite !length_insert; exact Hlen).
  assert (Hmsb : reg_at rs' ACCUM_CHARGE_MSB_REG = 0).
  { unfold rs', CONTROL_REG, ACCUM_CHARGE_MSB_REG, ACCUM_CHARGE_LSB_REG.
    rewrite !reg_at_insert_ne by lia.
    apply reg_at_insert_eq; [rewrite length_insert; exact Hlen | lia]. }
  assert (Hlsb : reg_at rs' ACCUM_CHARGE_LSB_REG = 0).
  { unfold rs', CONTROL_REG, ACCUM_CHARGE_MSB_REG, ACCUM_CHARGE_LSB_REG.
    rewrite reg_at_insert_ne by lia.
    apply reg_at_insert_eq; [rewrite !length_insert; exact Hlen | lia]. }
  assert (Hctl : reg_at rs' CONTROL_REG = c).
  { unfold rs', CONTROL_REG.
    apply reg_at_insert_eq; [rewrite !length_insert; exact Hlen | lia]. }
  rewrite Hmsb, Hlsb, Hctl.
  split; [tauto |].
  repeat split;
    rewrite read_step
      by (unfold ACCUM_CHARGE_MSB_REG, ACCUM_CHARGE_LSB_REG, CONTROL_REG;
          first [assumption | lia]);
    cbn [hd fst drop]; congruence.
Qed.

Lemma reset_charge_clears_and_restores_witness :
  let rs := [0; 0x3C; 0x7F; 0xFF; 0; 0; 0; 0; 0; 0; 0; 0; 0; 0; 0; 0] in
  let w := snd (ltc_reset_charge mock_readWrite tt (boot rs [])) in
  (reg_at (regs w) ACCUM_CHARGE_MSB_REG = 0x00
   /\ reg_at (regs w) ACCUM_CHARGE_LSB_REG = 0x00
   /\ reg_at (regs w) CONTROL_REG = 0x3C
   /\ shutdown_field (reg_at (regs w) CONTROL_REG) = shutdown_field 0x3C)
  /\ fst (ltc_readRegister mock_readWrite tt ACCUM_CHARGE_MSB_REG 0x55 w)
     = (true, 0x00)
  /\ fst (ltc_readRegister mock_readWrite tt ACCUM_CHARGE_LSB_REG 0x55 w)
     = (true, 0x00)
  /\ fst (ltc_readRegister mock_readWrite tt CONTROL_REG 0x55 w)
     = (true, 0x3C).
Proof.
  apply (reset_charge_clears_and_restores tt
           [0; 0x3C; 0x7F; 0xFF; 0; 0; 0; 0; 0; 0; 0; 0; 0; 0; 0; 0]
           0x3C 0x55); reflexivity.
Defined.

(** C7: during [ltc_reset_charge] on a transport that always succeeds,
    the log is the read of the control register, the write that sets
    the shutdown bit, the two accumulator writes and the restoring
    write, in this order; the byte of the second access has the shutdown
    bit set, and replaying the log finds the shutdown bit set in the
    control register at every accumulator write. *)
Theorem reset_charge_writes_under_shutdown
    {dev_id : Type} (id : dev_id) (rs : list Z) :
  chip_ok rs = true ->
  let c := reg_at rs CONTROL_REG in
  let t := trace (snd (ltc_reset_charge mock_readWrite id (boot rs []))) in
  t = [Read CONTROL_REG true;
       Write CONTROL_REG (Z.lor c SHUTDOWN_MODE) true;
       Write ACCUM_CHARGE_MSB_REG 0x00 true;
       Write ACCUM_CHARGE_LSB_REG 0x00 true;
       Write CONTROL_REG c true]
  /\ Z.testbit (Z.lor c SHUTDOWN_MODE) 0 = true
  /\ shutdown_guarded c t = true.
Proof.
  intros Hok.
  pose proof (reset_charge_run id rs [] Hok) as Hrun.
  cbv zeta in Hrun. cbn [outcome nth] in Hrun.
  cbv zeta. rewrite Hrun. cbn [snd trace]. clear Hrun.
  split; [reflexivity |]. split; [apply lor_shutdown_bit |].
  cbn [shutdown_guarded is_accumulator CONTROL_REG ACCUM_CHARGE_MSB_REG
       ACCUM_CHARGE_LSB_REG Z.eqb Pos.eqb orb andb].
  rewrite lor_shutdown_bit. reflexivity.
Qed.

Lemma reset_charge_writes_under_shutdown_witness :
  let rs := [0; 0x3C; 0x7F; 0xFF; 0; 0; 0; 0; 0; 0; 0; 0; 0; 0; 0; 0] in
  let t := trace (snd (ltc_reset_charge mock_readWrite tt (boot rs []))) in
  t = [Read CONTROL_REG true;
       Write CONTROL_REG 0x3D true;
       Write ACCUM_CHARGE_MSB_REG 0x00 true;
       Write ACCUM_CHARGE_LSB_REG 0x00 true;
       Write CONTROL_REG 0x3C true]
  /\ Z.testbit 0x3D 0 = true
  /\ shutdown_guarded 0x3C t = true.
Proof.
  apply (reset_charge_writes_under_shutdown tt
           [0; 0x3C; 0x7F; 0xFF; 0; 0; 0; 0; 0; 0; 0; 0; 0; 0; 0; 0]);
    reflexivity.
Defined.

(** ** Claims about the measurement reads *)

(** On any transport whatever, the flag a measurement read returns is
    the conjunction of the flags its two register reads return. *)
Section AnyTransport.

Context {dev_id bus : Type}.
Variable HAL : dev_id -> list Z -> Z -> list Z -> Z -> io bus (bool * list Z).
Variable sleep : Z -> io bus unit.
Variables (id : dev_id) (g : Z * Z) (w : bus).

Ltac split_runs :=
  unfold bind, ret;
  repeat match goal with
         | |- context [let (_, _) := ?e in _] =>
             destruct e; cbn [fst snd]
         end;
  reflexivity.

Lemma code_to_voltage_flag :
  let r1 := ltc_readRegister HAL id VOLTAGE_MSB_REG (snd g) w in
  let r2 := ltc_readRegister HAL id VOLTAGE_LSB_REG (fst g)
              (snd (sleep 1 (snd r1))) in
  fst (fst (ltc_code_to_voltage HAL sleep id g w))
  = fst (fst r1) && fst (fst r2).
Proof. cbv zeta. unfold ltc_code_to_voltage. split_runs. Qed.

Lemma temp_flag :
  let r1 := ltc_readRegister HAL id TEMPERATURE_MSB_REG (snd g) w in
  let r2 := ltc_readRegister HAL id TEMPERATURE_LSB_REG (fst g)
              (snd (sleep 1 (snd r1))) in
  fst (fst (ltc_temp HAL sleep id g w)) = fst (fst r1) && fst (fst r2).
Proof. cbv zeta. unfold ltc_temp. split_runs. Qed.

Lemma capacity_flag :
  let r1 := ltc_readRegister HAL id ACCUM_CHARGE_MSB_REG (snd g) w in
  let r2 := ltc_readRegister HAL id ACCUM_CHARGE_LSB_REG (fst g)
              (snd (sleep 1 (snd r1))) in
  fst (fst (ltc_capacity HAL sleep id g w)) = fst (fst r1) && fst (fst r2).
Proof. cbv zeta. unfold ltc_capacity. split_runs. Qed.

End AnyTransport.

(** C2: for each of [ltc_code_to_voltage], [ltc_temp] and
    [ltc_capacity], run against the mock whose script decides the
    outcome of the MSB read and of the LSB read, the returned flag is the
    conjunction of the two outcomes: false as soon as one read fails,
    true only when both succeed. *)
Theorem measurement_flag_is_conjunction
    {dev_id : Type} (id : dev_id) (rs : list Z) (s : list bool) (g : Z * Z) :
  chip_ok rs = true ->
  let msb_ok := outcome s 0 in
  let lsb_ok := outcome s 1 in
  fst (fst (ltc_code_to_voltage mock_readWrite mock_usleep id g (boot rs s)))
  = msb_ok && lsb_ok
  /\ fst (fst (ltc_temp mock_readWrite mock_usleep id g (boot rs s)))
     = msb_ok && lsb_ok
  /\ fst (fst (ltc_capacity mock_readWrite mock_usleep id g (boot rs s)))
     = msb_ok && lsb_ok.
Proof.
  intros Hok. cbv zeta.
  rewrite (code_to_voltage_run id rs s g Hok),
          (temp_run id rs s g Hok), (capacity_run id rs s g Hok).
  repeat split.
Qed.

Lemma measurement_flag_is_conjunction_witness :
  let rs := [0; 0x3C; 0x7F; 0xFF; 0; 0; 0; 0; 0x12; 0x34; 0; 0; 0x80; 1; 0; 0] in
  let s := [true; false] in
  fst (fst (ltc_code_to_voltage mock_readWrite mock_usleep tt (5, 6)
              (boot rs s))) = false
  /\ fst (fst (ltc_temp mock_readWrite mock_usleep tt (5, 6) (boot rs s)))
     = false
  /\ fst (fst (ltc_capacity mock_readWrite mock_usleep tt (5, 6) (boot rs s)))
     = false.
Proof.
  apply (measurement_flag_is_conjunction tt
           [0; 0x3C; 0x7F; 0xFF; 0; 0; 0; 0; 0x12; 0x34; 0; 0; 0x80; 1; 0; 0]
           [true; false] (5, 6)); reflexivity.
Defined.

Lemma u16_i16 (x : Z) : u16 (i16 x) = u16 x.
Proof.
  unfold u16, i16. cbv zeta.
  pose proof (Z.mod_pos_bound x 65536 ltac:(lia)) as Hb.
  destruct (x mod 65536 <? 32768).
  - apply Z.mod_mod. lia.
  - replace (x mod 65536 - 65536) with (x mod 65536 + (-1) * 65536) by lia.
    rewrite Z.mod_add by lia. apply Z.mod_mod. lia.
Qed.

Lemma u16_idem (x : Z) : u16 (u16 x) = u16 x.
Proof. unfold u16. apply Z.mod_mod. lia. Qed.

(** C6: with both reads succeeding, each measurement read assembles
    [(MSB << 8) | LSB] from its two register bytes, which is
    [256 * MSB + LSB]: the voltage and the charge outputs are this word,
    and the temperature output carries it in its sixteen bits. *)
Theorem measurements_assemble_big_endian
    {dev_id : Type} (id : dev_id) (rs : list Z) (g : Z * Z) :
  chip_ok rs = true ->
  let word msb lsb := Z.lor (Z.shiftl (reg_at rs msb) 8) (reg_at rs lsb) in
  (snd (fst (ltc_code_to_voltage mock_readWrite mock_usleep id g (boot rs [])))
   = word VOLTAGE_MSB_REG VOLTAGE_LSB_REG
   /\ word VOLTAGE_MSB_REG VOLTAGE_LSB_REG
      = reg_at rs VOLTAGE_MSB_REG * 256 + reg_at rs VOLTAGE_LSB_REG)
  /\ (u16 (snd (fst (ltc_temp mock_readWrite mock_usleep id g (boot rs []))))
      = word TEMPERATURE_MSB_REG TEMPERATURE_LSB_REG
      /\ word TEMPERATURE_MSB_REG TEMPERATURE_LSB_REG
         = reg_at rs TEMPERATURE_MSB_REG * 256 + reg_at rs TEMPERATURE_LSB_REG)
  /\ (snd (fst (ltc_capacity mock_readWrite mock_usleep id g (boot rs [])))
      = word ACCUM_CHARGE_MSB_REG ACCUM_CHARGE_LSB_REG
      /\ word ACCUM_CHARGE_MSB_REG ACCUM_CHARGE_LSB_REG
         = reg_at rs ACCUM_CHARGE_MSB_REG * 256
           + reg_at rs ACCUM_CHARGE_LSB_REG).
Proof.
  intros Hok. cbv zeta.
  rewrite (code_to_voltage_run id rs [] g Hok),
          (temp_run id rs [] g Hok), (capacity_run id rs [] g Hok).
  cbn [outcome nth fetched fst snd]. rewrite u16_i16.
  rewrite u16_idem.
  pose proof (fun r => chip_ok_byte rs r Hok) as Hb.
  unfold VOLTAGE_MSB_REG, VOLTAGE_LSB_REG, TEMPERATURE_MSB_REG,
    TEMPERATURE_LSB_REG, ACCUM_CHARGE_MSB_REG, ACCUM_CHARGE_LSB_REG.
  rewrite !u16_assemble by (apply Hb; lia).
  rewrite !assemble_bytes by (apply Hb; lia).
  repeat split.
Qed.

Lemma measurements_assemble_big_endian_witness :
  let rs := [0; 0x3C; 0x12; 0x34; 0; 0; 0; 0; 0x12; 0x34; 0; 0; 0x12; 0x34;
             0; 0] in
  (snd (fst (ltc_code_to_voltage mock_readWrite mock_usleep tt (5, 6)
               (boot rs []))) = 0x1234
   /\ 0x1234 = 0x12 * 256 + 0x34)
  /\ (u16 (snd (fst (ltc_temp mock_readWrite mock_usleep tt (5, 6)
                       (boot rs [])))) = 0x1234
      /\ 0x1234 = 0x12 * 256 + 0x34)
  /\ (snd (fst (ltc_capacity mock_readWrite mock_usleep tt (5, 6)
                  (boot rs []))) = 0x1234
      /\ 0x1234 = 0x12 * 256 + 0x34).
Proof.
  exact (measurements_assemble_big_endian tt
           [0; 0x3C; 0x12; 0x34; 0; 0; 0; 0; 0x12; 0x34; 0; 0; 0x12; 0x34;
            0; 0] (5, 6) eq_refl).
Defined.

(** C10: [ltc_temp] stores the assembled unsigned 16-bit code into a
    signed 16-bit output; when the MSB register holds 0x80 or more, the
    caller sees the raw code minus 65536, a negative number. *)
Theorem temp_high_code_reads_negative
    {dev_id : Type} (id : dev_id) (rs : list Z) (g : Z * Z) :
  chip_ok rs = true ->
  0x80 <= reg_at rs TEMPERATURE_MSB_REG ->
  let raw := Z.lor (Z.shiftl (reg_at rs TEMPERATURE_MSB_REG) 8)
                   (reg_at rs TEMPERATURE_LSB_REG) in
  let r := fst (ltc_temp mock_readWrite mock_usleep id g (boot rs [])) in
  fst r = true
  /\ snd r = raw - 65536
  /\ snd r < 0
  /\ 32768 <= raw < 65536.
Proof.
  intros Hok Hhigh. cbv zeta.
  rewrite (temp_run id rs [] g Hok).
  cbn [outcome nth fetched fst snd andb].
  pose proof (chip_ok_byte rs TEMPERATURE_MSB_REG Hok
                ltac:(unfold TEMPERATURE_MSB_REG; lia)) as Hm.
  pose proof (chip_ok_byte rs TEMPERATURE_LSB_REG Hok
                ltac:(unfold TEMPERATURE_LSB_REG; lia)) as Hl.
  rewrite u16_assemble, assemble_bytes by assumption.
  set (raw := reg_at rs TEMPERATURE_MSB_REG * 256
              + reg_at rs TEMPERATURE_LSB_REG).
  assert (Hraw : 32768 <= raw < 65536) by (unfold raw; lia).
  unfold i16. cbv zeta. rewrite Z.mod_small by lia.
  destruct (Z.ltb_spec raw 32768) as [Hlt | _]; [lia |].
  repeat split; lia.
Qed.

Lemma temp_high_code_reads_negative_witness :
  let rs := [0; 0x3C; 0x7F; 0xFF; 0; 0; 0; 0; 0x12; 0x34; 0; 0; 0x80; 1; 0; 0] in
  let r := fst (ltc_temp mock_readWrite mock_usleep tt (5, 6) (boot rs [])) in
  fst r = true
  /\ snd r = 0x8001 - 65536
  /\ snd r < 0
  /\ 32768 <= 0x8001 < 65536.
Proof.
  apply (temp_high_code_reads_negative tt
           [0; 0x3C; 0x7F; 0xFF; 0; 0; 0; 0; 0x12; 0x34; 0; 0; 0x80; 1; 0; 0]
           (5, 6)); [reflexivity | vm_compute; discriminate].
Defined.

(** C9: whatever the script makes fail, each measurement read performs
    its whole sequence (MSB read, delay, LSB read, delay) and stores the
    word assembled from the two buffer bytes, a byte being the register
    when its read succeeded and what the buffer held before when it
    failed; [ltc_reset_charge] performs its five accesses whichever of
    them fail. *)
Theorem every_step_runs_despite_failures
    {dev_id : Type} (id : dev_id) (rs : list Z) (s : list bool) (g : Z * Z) :
  chip_ok rs = true ->
  let o := outcome s in
  let v := ltc_code_to_voltage mock_readWrite mock_usleep id g (boot rs s) in
  let t := ltc_temp mock_readWrite mock_usleep id g (boot rs s) in
  let q := ltc_capacity mock_readWrite mock_usleep id g (boot rs s) in
  let saved := fetched rs (o 0%nat) CONTROL_REG 0 in
  (trace (snd v) = [Read VOLTAGE_MSB_REG (o 0%nat); Delay 1;
                    Read VOLTAGE_LSB_REG (o 1%nat); Delay 1]
   /\ snd (fst v)
      = u16 (Z.lor
               (Z.shiftl (fetched rs (o 0%nat) VOLTAGE_MSB_REG (snd g)) 8)
               (fetched rs (o 1%nat) VOLTAGE_LSB_REG (fst g))))
  /\ (trace (snd t) = [Read TEMPERATURE_MSB_REG (o 0%nat); Delay 1;
                       Read TEMPERATURE_LSB_REG (o 1%nat); Delay 1]
      /\ snd (fst t)
         = i16 (u16 (Z.lor
                 (Z.shiftl (fetched rs (o 0%nat) TEMPERATURE_MSB_REG (snd g)) 8)
                 (fetched rs (o 1%nat) TEMPERATURE_LSB_REG (fst g)))))
  /\ (trace (snd q) = [Read ACCUM_CHARGE_MSB_REG (o 0%nat); Delay 1;
                       Read ACCUM_CHARGE_LSB_REG (o 1%nat); Delay 1]
      /\ snd (fst q)
         = u16 (Z.lor
                 (Z.shiftl (fetched rs (o 0%nat) ACCUM_CHARGE_MSB_REG (snd g)) 8)
                 (fetched rs (o 1%nat) ACCUM_CHARGE_LSB_REG (fst g))))
  /\ trace (snd (ltc_reset_charge mock_readWrite id (boot rs s)))
     = [Read CONTROL_REG (o 0%nat);
        Write CONTROL_REG (Z.lor saved SHUTDOWN_MODE) (o 1%nat);
        Write ACCUM_CHARGE_MSB_REG 0x00 (o 2%nat);
        Write ACCUM_CHARGE_LSB_REG 0x00 (o 3%nat);
        Write CONTROL_REG saved (o 4%nat)].
Proof.
  intros Hok. cbv zeta.
  rewrite (code_to_voltage_run id rs s g Hok),
          (temp_run id rs s g Hok), (capacity_run id rs s g Hok).
  pose proof (reset_charge_run id rs s Hok) as Hrun.
  cbv zeta in Hrun. rewrite Hrun.
  repeat split.
Qed.

Lemma every_step_runs_despite_failures_witness :
  let rs := [0; 0x3C; 0x7F; 0xFF; 0; 0; 0; 0; 0x12; 0x34; 0; 0; 0x80; 1; 0; 0] in
  let s := [false; true; false] in
  let v := ltc_code_to_voltage mock_readWrite mock_usleep tt (5, 6) (boot rs s) in
  let t := ltc_temp mock_readWrite mock_usleep tt (5, 6) (boot rs s) in
  let q := ltc_capacity mock_readWrite mock_usleep tt (5, 6) (boot rs s) in
  (trace (snd v) = [Read VOLTAGE_MSB_REG false; Delay 1;
                    Read VOLTAGE_LSB_REG true; Delay 1]
   /\ snd (fst v) = 0x0634)
  /\ (trace (snd t) = [Read TEMPERATURE_MSB_REG false; Delay 1;
                       Read TEMPERATURE_LSB_REG true; Delay 1]
      /\ snd (fst t) = 0x0601)
  /\ (trace (snd q) = [Read ACCUM_CHARGE_MSB_REG false; Delay 1;
                       Read ACCUM_CHARGE_LSB_REG true; Delay 1]
      /\ snd (fst q) = 0x06FF)
  /\ trace (snd (ltc_reset_charge mock_readWrite tt (boot rs s)))
     = [Read CONTROL_REG false;
        Write CONTROL_REG 0x01 true;
        Write ACCUM_CHARGE_MSB_REG 0x00 false;
        Write ACCUM_CHARGE_LSB_REG 0x00 true;
        Write CONTROL_REG 0x00 true].
Proof.
  exact (every_step_runs_despite_failures tt
           [0; 0x3C; 0x7F; 0xFF; 0; 0; 0; 0; 0x12; 0x34; 0; 0; 0x80; 1; 0; 0]
           [false; true; false] (5, 6) eq_refl).
Defined.

(** ** Settling delays *)

(** C4, as stated, fails: in the log of [ltc_reset_charge] bus accesses
    follow one another with no delay in between. *)
Lemma reset_charge_delay_counterexample :
  delay_separated
    (trace (snd (ltc_reset_charge mock_readWrite tt
                   (boot [0; 0x3C; 0x7F; 0xFF; 0; 0; 0; 0;
                          0; 0; 0; 0; 0; 0; 0; 0] []))))
  = false.
Proof. reflexivity. Qed.

(** C4, amended: each measurement read invokes the delay primitive
    between its MSB and its LSB register access (and once more after the
    LSB access), so no two of its accesses are adjacent; the log of
    [ltc_reset_charge] holds five bus accesses and no delay at all. *)
Theorem delays_in_measurements_none_in_reset
    {dev_id : Type} (id : dev_id) (rs : list Z) (s : list bool) (g : Z * Z) :
  chip_ok rs = true ->
  let o := outcome s in
  let tv := trace (snd (ltc_code_to_voltage mock_readWrite mock_usleep id g
                          (boot rs s))) in
  let tm := trace (snd (ltc_temp mock_readWrite mock_usleep id g
                           (boot rs s))) in
  let tq := trace (snd (ltc_capacity mock_readWrite mock_usleep id g
                          (boot rs s))) in
  let tr := trace (snd (ltc_reset_charge mock_readWrite id (boot rs s))) in
  (tv = [Read VOLTAGE_MSB_REG (o 0%nat); Delay 1;
         Read VOLTAGE_LSB_REG (o 1%nat); Delay 1]
   /\ delay_separated tv = true)
  /\ (tm = [Read TEMPERATURE_MSB_REG (o 0%nat); Delay 1;
             Read TEMPERATURE_LSB_REG (o 1%nat); Delay 1]
      /\ delay_separated tm = true)
  /\ (tq = [Read ACCUM_CHARGE_MSB_REG (o 0%nat); Delay 1;
            Read ACCUM_CHARGE_LSB_REG (o 1%nat); Delay 1]
      /\ delay_separated tq = true)
  /\ (length tr = 5%nat /\ forallb is_access tr = true
      /\ delay_separated tr = false).
Proof.
  intros Hok. cbv zeta.
  rewrite (code_to_voltage_run id rs s g Hok),
          (temp_run id rs s g Hok), (capacity_run id rs s g Hok).
  pose proof (reset_charge_run id rs s Hok) as Hrun.
  cbv zeta in Hrun. rewrite Hrun.
  repeat split.
Qed.

Lemma delays_in_measurements_none_in_reset_witness :
  let rs := [0; 0x3C; 0x7F; 0xFF; 0; 0; 0; 0; 0x12; 0x34; 0; 0; 0x80; 1; 0; 0] in
  let tv := trace (snd (ltc_code_to_voltage mock_readWrite mock_usleep tt (5, 6)
                          (boot rs []))) in
  let tm := trace (snd (ltc_temp mock_readWrite mock_usleep tt (5, 6)
                           (boot rs []))) in
  let tq := trace (snd (ltc_capacity mock_readWrite mock_usleep tt (5, 6)
                          (boot rs []))) in
  let tr := trace (snd (ltc_reset_charge mock_readWrite tt (boot rs []))) in
  (tv = [Read VOLTAGE_MSB_REG true; Delay 1;
         Read VOLTAGE_LSB_REG true; Delay 1]
   /\ delay_separated tv = true)
  /\ (tm = [Read TEMPERATURE_MSB_REG true; Delay 1;
             Read TEMPERATURE_LSB_REG true; Delay 1]
      /\ delay_separated tm = true)
  /\ (tq = [Read ACCUM_CHARGE_MSB_REG true; Delay 1;
            Read ACCUM_CHARGE_LSB_REG true; Delay 1]
      /\ delay_separated tq = true)
  /\ (length tr = 5%nat /\ forallb is_access tr = true
      /\ delay_separated tr = false).
Proof.
  exact (delays_in_measurements_none_in_reset tt
           [0; 0x3C; 0x7F; 0xFF; 0; 0; 0; 0; 0x12; 0x34; 0; 0; 0x80; 1; 0; 0]
           [] (5, 6) eq_refl).
Defined.

(** ** Initialisation *)

(** C3, as stated, fails: the byte [ltc_init] writes to the control
    register has prescaler bits [PRESCALAR_M_2], not [PRESCALAR_M_4],
    and ALCC bits [DISABLE_ALCC_PIN], not [CHARGE_COMPLETE_MODE]. *)
Lemma init_fields_counterexample :
  let t := trace (snd (ltc_init mock_readWrite mock_usleep tt
                         (boot [0; 0x3C; 0x7F; 0xFF; 0; 0; 0; 0;
                                0; 0; 0; 0; 0; 0; 0; 0] []))) in
  exists v : Z,
    writes t = [(CONTROL_REG, v)]
    /\ prescaler_field v = PRESCALAR_M_2
    /\ prescaler_field v <> PRESCALAR_M_4
    /\ alcc_field v <> CHARGE_COMPLETE_MODE
    /\ spec_init_fields v = false.
Proof.
  exists 0xC8. cbv zeta.
  repeat split; try reflexivity; vm_compute; discriminate.
Qed.

(** C3, amended: [ltc_init] performs one bus access, a write to the
    control register of one fixed byte, followed by one delay; the mode
    bits of this byte select automatic mode, its ALCC bits select the
    disabled ALCC pin (neither alert mode nor charge-complete mode) and
    its shutdown bit is clear. *)
Theorem init_writes_fixed_control_byte :
  exists v : Z,
    (forall (dev_id : Type) (id : dev_id) (rs : list Z) (s : list bool),
        exists ok : bool,
          trace (snd (ltc_init mock_readWrite mock_usleep id (boot rs s)))
          = [Write CONTROL_REG v ok; Delay 1])
    /\ mode_field v = AUTOMATIC_MODE
    /\ alcc_field v = DISABLE_ALCC_PIN
    /\ alcc_field v <> ALERT_MODE
    /\ alcc_field v <> CHARGE_COMPLETE_MODE
    /\ shutdown_field v = 0.
Proof.
  exists 0xC8. split.
  - intros dev_id id rs s. rewrite init_run. cbv zeta. cbn [snd trace].
    eexists. reflexivity.
  - repeat split; try reflexivity; vm_compute; discriminate.
Qed.

(** ** Device identification *)

(** For a byte, masking with [0xC0] leaves zero exactly when bits 7 and
    6 are both clear. *)
Lemma top_two_bits (st : Z) :
  0 <= st < 256 ->
  (Z.land st 0xC0 =? DEVICE_ID) = negb (Z.testbit st 7) && negb (Z.testbit st 6).
Proof.
  intros Hst.
  assert (Hall : forallb
            (fun n => Bool.eqb (Z.land (Z.of_nat n) 0xC0 =? DEVICE_ID)
                        (negb (Z.testbit (Z.of_nat n) 7)
                         && negb (Z.testbit (Z.of_nat n) 6)))
            (seq 0 256) = true) by (vm_compute; reflexivity).
  rewrite forallb_forall in Hall.
  specialize (Hall (Z.to_nat st)).
  rewrite Z2Nat.id in Hall by lia.
  apply Bool.eqb_prop, Hall, in_seq. lia.
Qed.

(** The part of C1 the code keeps: when the read of the status register
    succeeds, [ltc_readDeviceID] returns true exactly when the top two
    bits of the status register are the identification pattern, the
    other six bits playing no part. *)
Lemma readDeviceID_on_success
    {dev_id : Type} (id : dev_id) (rs : list Z) (s : list bool) :
  chip_ok rs = true -> outcome s 0 = true ->
  let st := reg_at rs STATUS_REG in
  fst (ltc_readDeviceID mock_readWrite id (boot rs s))
  = negb (Z.testbit st 7) && negb (Z.testbit st 6).
Proof.
  intros Hok Hs. cbv zeta.
  rewrite (readDeviceID_run id rs s Hok), Hs. cbn [fst fetched].
  apply top_two_bits, chip_ok_byte; [exact Hok | unfold STATUS_REG; lia].
Qed.

(** C1 at a failing read: [ltc_readDeviceID] drops the flag of
    [ltc_readRegister]; when the read fails and leaves the byte at its
    initial 0, the function returns true, whatever the registers hold. *)
Theorem readDeviceID_true_on_failed_read :
  forall (dev_id : Type) (id : dev_id) (rs : list Z) (rest : list bool),
    ltc_readDeviceID mock_readWrite id (boot rs (false :: rest))
    = (true, Mock rs rest [Read STATUS_REG false]).
Proof. reflexivity. Qed.

(** * Further properties of the driver *)

(** ** Operations that only read *)

(** X2: [ltc_readDeviceID] and the three measurement reads never write
    to the chip: whatever the registers hold and whatever the script
    makes fail, the registers afterwards are the registers before and
    the log holds no write. *)
Theorem reads_leave_chip_untouched :
  forall (dev_id : Type) (id : dev_id) (rs : list Z) (s : list bool)
         (g : Z * Z),
    let d := snd (ltc_readDeviceID mock_readWrite id (boot rs s)) in
    let v := snd (ltc_code_to_voltage mock_readWrite mock_usleep id g
                    (boot rs s)) in
    let t := snd (ltc_temp mock_readWrite mock_usleep id g (boot rs s)) in
    let q := snd (ltc_capacity mock_readWrite mock_usleep id g (boot rs s)) in
    (regs d = rs /\ writes (trace d) = [])
    /\ (regs v = rs /\ writes (trace v) = [])
    /\ (regs t = rs /\ writes (trace t) = [])
    /\ (regs q = rs /\ writes (trace q) = []).
Proof.
  intros dev_id id rs s g. cbv zeta. repeat split.
Qed.

(** ** Output ranges *)



Section OutputRanges.

Context {dev_id bus : Type}.
Variable HAL : dev_id -> list Z -> Z -> list Z -> Z -> io bus (bool * list Z).
Variable sleep : Z -> io bus unit.
Variables (id : dev_id) (g : Z * Z) (w : bus).



End OutputRanges.

(** ** Register writes and reads that do not meet *)

(** X8: on the byte-array mock, a successful [ltc_writeRegister] to a
    valid register [r] leaves every other valid register [r'] as it was:
    a following [ltc_readRegister] of [r'] returns what [r'] held before
    the write. *)
Theorem write_leaves_other_registers
    {dev_id : Type} (id : dev_id) (rs : list Z) (r r' v g : Z) :
  chip_ok rs = true -> 0 <= r < 16 -> 0 <= r' < 16 -> r <> r' ->
  0 <= v < 256 ->
  let wr := ltc_writeRegister mock_readWrite id r v (boot rs []) in
  fst (ltc_readRegister mock_readWrite id r' g (snd wr))
  = (true, reg_at rs r').
Proof.
  intros Hok Hr Hr' Hne Hv. pose proof (chip_ok_length rs Hok) as Hlen.
  unfold boot. cbv zeta. rewrite write_step by assumption.
  cbn [hd tl fst snd].
  rewrite read_step by (rewrite ?length_insert; assumption).
  cbn [hd fst]. rewrite reg_at_insert_ne by lia. reflexivity.
Qed.

Lemma write_leaves_other_registers_witness :
  let rs := [0; 0x3C; 0x7F; 0xFF; 0; 0; 0; 0; 0; 0; 0; 0; 0; 0; 0; 0] in
  let wr := ltc_writeRegister mock_readWrite tt 0x02 0xA5 (boot rs []) in
  fst (ltc_readRegister mock_readWrite tt 0x03 0x11 (snd wr)) = (true, 0xFF).
Proof.
  apply (write_leaves_other_registers tt
           [0; 0x3C; 0x7F; 0xFF; 0; 0; 0; 0; 0; 0; 0; 0; 0; 0; 0; 0]
           0x02 0x03 0xA5 0x11); [reflexivity | lia | lia | lia | lia].
Defined.

(** ** The reset sequence under failures *)

(** A write that may have failed, seen from another register. *)
Lemma reg_at_written_ne (rs : list Z) (o : bool) (r r' v : Z) :
  0 <= r -> 0 <= r' -> r <> r' ->
  reg_at (if o then <[Z.to_nat r := v]> rs else rs) r' = reg_at rs r'.
Proof.
  intros Hr Hr' Hne. destruct o; [| reflexivity].
  apply reg_at_insert_ne; assumption.
Qed.

(** X3: whichever of its five accesses fail, [ltc_reset_charge] changes
    no register other than the control register and the two
    charge-accumulator registers. *)
Theorem reset_charge_frame
    {dev_id : Type} (id : dev_id) (rs : list Z) (s : list bool) (r : Z) :
  chip_ok rs = true -> 0 <= r < 16 ->
  r <> CONTROL_REG -> r <> ACCUM_CHARGE_MSB_REG ->
  r <> ACCUM_CHARGE_LSB_REG ->
  reg_at (regs (snd (ltc_reset_charge mock_readWrite id (boot rs s)))) r
  = reg_at rs r.
Proof.
  intros Hok Hr H1 H2 H3.
  pose proof (reset_charge_run id rs s Hok) as Hrun.
  cbv zeta in Hrun. rewrite Hrun. cbn [snd regs]. clear Hrun.
  unfold CONTROL_REG, ACCUM_CHARGE_MSB_REG, ACCUM_CHARGE_LSB_REG in *.
  destruct (outcome s 4), (outcome s 3), (outcome s 2), (outcome s 1);
    rewrite ?reg_at_insert_ne by lia; reflexivity.
Qed.

Lemma reset_charge_frame_witness :
  reg_at (regs (snd (ltc_reset_charge mock_readWrite tt
                       (boot [0; 0x3C; 0x7F; 0xFF; 0; 0; 0; 0;
                              0x12; 0x34; 0; 0; 0x80; 1; 0; 0]
                             [true; false; true])))) 0x09
  = 0x34.
Proof.
  apply (reset_charge_frame tt
           [0; 0x3C; 0x7F; 0xFF; 0; 0; 0; 0; 0x12; 0x34; 0; 0; 0x80; 1; 0; 0]
           [true; false; true] 0x09);
    first [reflexivity | lia | vm_compute; discriminate].
Defined.

(** X4: when the read of the control register fails, [ltc_reset_charge]
    works from its initial [reg_save = 0]: the bytes it sends to the
    control register are 0x01 and then 0x00, and if the last write
    succeeds the control register ends at 0x00 whatever it held before
    and whichever of the other writes fail. *)
Theorem reset_charge_failed_read_clears_control
    {dev_id : Type} (id : dev_id) (rs : list Z) (s : list bool) :
  chip_ok rs = true ->
  outcome s 0 = false -> outcome s 4 = true ->
  let w := snd (ltc_reset_charge mock_readWrite id (boot rs s)) in
  reg_at (regs w) CONTROL_REG = 0x00
  /\ writes (trace w) = [(CONTROL_REG, 0x01); (ACCUM_CHARGE_MSB_REG, 0x00);
                         (ACCUM_CHARGE_LSB_REG, 0x00); (CONTROL_REG, 0x00)].
Proof.
  intros Hok H0 H4. pose proof (chip_ok_length rs Hok) as Hlen.
  pose proof (reset_charge_run id rs s Hok) as Hrun.
  cbv zeta in Hrun. rewrite H0, H4 in Hrun.
  cbv zeta. rewrite Hrun. cbn [snd regs trace]. clear Hrun.
  split; [| reflexivity].
  unfold CONTROL_REG.
  apply reg_at_insert_eq; [| lia].
  repeat apply written_length. exact Hlen.
Qed.

Lemma reset_charge_failed_read_clears_control_witness :
  let rs := [0; 0x3C; 0x7F; 0xFF; 0; 0; 0; 0; 0; 0; 0; 0; 0; 0; 0; 0] in
  let w := snd (ltc_reset_charge mock_readWrite tt
                  (boot rs [false; true; false])) in
  reg_at (regs w) CONTROL_REG = 0x00
  /\ writes (trace w) = [(CONTROL_REG, 0x01); (ACCUM_CHARGE_MSB_REG, 0x00);
                         (ACCUM_CHARGE_LSB_REG, 0x00); (CONTROL_REG, 0x00)].
Proof.
  apply (reset_charge_failed_read_clears_control tt
           [0; 0x3C; 0x7F; 0xFF; 0; 0; 0; 0; 0; 0; 0; 0; 0; 0; 0; 0]
           [false; true; false]); reflexivity.
Defined.

(** X5: when the read of the control register and the write that sets
    the shutdown bit succeed but the last write, the one that restores
    the control register, fails, [ltc_reset_charge] leaves the control
    register at its original value with the shutdown bit set. *)
Theorem reset_charge_failed_restore_leaves_shutdown
    {dev_id : Type} (id : dev_id) (rs : list Z) (s : list bool) :
  chip_ok rs = true ->
  outcome s 0 = true -> outcome s 1 = true -> outcome s 4 = false ->
  let c := reg_at rs CONTROL_REG in
  let w := snd (ltc_reset_charge mock_readWrite id (boot rs s)) in
  reg_at (regs w) CONTROL_REG = Z.lor c SHUTDOWN_MODE
  /\ Z.testbit (reg_at (regs w) CONTROL_REG) 0 = true.
Proof.
  intros Hok H0 H1 H4. pose proof (chip_ok_length rs Hok) as Hlen.
  pose proof (reset_charge_run id rs s Hok) as Hrun.
  cbv zeta in Hrun. rewrite H0, H1, H4 in Hrun.
  cbv zeta. rewrite Hrun. cbn [snd regs]. clear Hrun.
  rewrite !reg_at_written_ne
    by (unfold CONTROL_REG, ACCUM_CHARGE_MSB_REG, ACCUM_CHARGE_LSB_REG; lia).
  rewrite reg_at_insert_eq by (unfold CONTROL_REG; first [exact Hlen | lia]).
  split; [reflexivity | apply lor_shutdown_bit].
Qed.

Lemma reset_charge_failed_restore_leaves_shutdown_witness :
  let rs := [0; 0x3C; 0x7F; 0xFF; 0; 0; 0; 0; 0; 0; 0; 0; 0; 0; 0; 0] in
  let w := snd (ltc_reset_charge mock_readWrite tt
                  (boot rs [true; true; true; true; false])) in
  reg_at (regs w) CONTROL_REG = 0x3D
  /\ Z.testbit (reg_at (regs w) CONTROL_REG) 0 = true.
Proof.
  apply (reset_charge_failed_restore_leaves_shutdown tt
           [0; 0x3C; 0x7F; 0xFF; 0; 0; 0; 0; 0; 0; 0; 0; 0; 0; 0; 0]
           [true; true; true; true; false]); reflexivity.
Defined.

(** X6: when the write that sets the shutdown bit fails and the control
    register has the bit clear, [ltc_reset_charge] goes on all the same:
    the accumulator writes are issued while the control register still
    has the shutdown bit clear, and each of them that succeeds clears
    its register. *)
Theorem reset_charge_failed_shutdown_write_unguarded
    {dev_id : Type} (id : dev_id) (rs : list Z) (s : list bool) :
  chip_ok rs = true ->
  outcome s 1 = false ->
  Z.testbit (reg_at rs CONTROL_REG) 0 = false ->
  let c := reg_at rs CONTROL_REG in
  let w := snd (ltc_reset_charge mock_readWrite id (boot rs s)) in
  shutdown_guarded c (trace w) = false
  /\ (outcome s 2 = true -> reg_at (regs w) ACCUM_CHARGE_MSB_REG = 0x00)
  /\ (outcome s 3 = true -> reg_at (regs w) ACCUM_CHARGE_LSB_REG = 0x00).
Proof.
  intros Hok H1 Hbit. pose proof (chip_ok_length rs Hok) as Hlen.
  pose proof (reset_charge_run id rs s Hok) as Hrun.
  cbv zeta in Hrun. rewrite H1 in Hrun.
  cbv zeta. rewrite Hrun. cbn [snd regs trace]. clear Hrun.
  split; [| split].
  - cbn [shutdown_guarded is_accumulator CONTROL_REG ACCUM_CHARGE_MSB_REG
         ACCUM_CHARGE_LSB_REG Z.eqb Pos.eqb orb andb].
    fold CONTROL_REG. rewrite Hbit. reflexivity.
  - intros H2. rewrite H2.
    unfold CONTROL_REG, ACCUM_CHARGE_MSB_REG, ACCUM_CHARGE_LSB_REG.
    destruct (outcome s 4), (outcome s 3);
      rewrite ?reg_at_insert_ne by lia;
      (apply reg_at_insert_eq; [exact Hlen | lia]).
  - intros H3. rewrite H3.
    unfold CONTROL_REG, ACCUM_CHARGE_MSB_REG, ACCUM_CHARGE_LSB_REG.
    destruct (outcome s 4), (outcome s 2);
      rewrite ?reg_at_insert_ne by lia;
      (apply reg_at_insert_eq; [rewrite ?length_insert; exact Hlen | lia]).
Qed.

Lemma reset_charge_failed_shutdown_write_unguarded_witness :
  let rs := [0; 0x3C; 0x7F; 0xFF; 0; 0; 0; 0; 0; 0; 0; 0; 0; 0; 0; 0] in
  let w := snd (ltc_reset_charge mock_readWrite tt (boot rs [true; false])) in
  shutdown_guarded 0x3C (trace w) = false
  /\ (true = true -> reg_at (regs w) ACCUM_CHARGE_MSB_REG = 0x00)
  /\ (true = true -> reg_at (regs w) ACCUM_CHARGE_LSB_REG = 0x00).
Proof.
  apply (reset_charge_failed_shutdown_write_unguarded tt
           [0; 0x3C; 0x7F; 0xFF; 0; 0; 0; 0; 0; 0; 0; 0; 0; 0; 0; 0]
           [true; false]); reflexivity.
Defined.

(** ** Reading the accumulator back *)

(** [ltc_capacity] started from any mock state, with any log so far. *)
Lemma capacity_run_from
    {dev_id : Type} (id : dev_id) (rs : list Z) (s : list bool)
    (tr : list event) (g : Z * Z) :
  length rs = 16%nat ->
  let o := outcome s in
  ltc_capacity mock_readWrite mock_usleep id g (Mock rs s tr) =
  ((o 0%nat && o 1%nat,
    u16 (Z.lor
           (Z.shiftl (fetched rs (o 0%nat) ACCUM_CHARGE_MSB_REG (snd g)) 8)
           (fetched rs (o 1%nat) ACCUM_CHARGE_LSB_REG (fst g)))),
   Mock rs (drop 2 s)
     (tr ++ [Read ACCUM_CHARGE_MSB_REG (o 0%nat); Delay 1;
             Read ACCUM_CHARGE_LSB_REG (o 1%nat); Delay 1])).
Proof.
  intros Hlen. cbv zeta.
  unfold ltc_capacity, ACCUM_CHARGE_MSB_REG, ACCUM_CHARGE_LSB_REG, bind, ret.
  rewrite read_step by first [assumption | lia].
  cbn [mock_usleep regs script trace].
  rewrite read_step by first [assumption | lia].
  cbn [mock_usleep regs script trace].
  rewrite <- !app_assoc. cbn [app].
  unfold fetched, outcome.
  destruct s as [| ? [| ? ?]]; reflexivity.
Qed.

(** X7: after [ltc_reset_charge] on a transport that succeeds,
    [ltc_capacity] reports success and a charge code of 0, whatever the
    accumulator and its own buffer held before. *)
Theorem capacity_zero_after_reset
    {dev_id : Type} (id : dev_id) (rs : list Z) (g : Z * Z) :
  chip_ok rs = true ->
  let w := snd (ltc_reset_charge mock_readWrite id (boot rs [])) in
  fst (ltc_capacity mock_readWrite mock_usleep id g w) = (true, 0).
Proof.
  intros Hok. pose proof (chip_ok_length rs Hok) as Hlen.
  pose proof (reset_charge_run id rs [] Hok) as Hrun.
  cbv zeta in Hrun. cbn [outcome nth] in Hrun.
  cbv zeta. rewrite Hrun. cbn [snd drop]. clear Hrun.
  rewrite capacity_run_from by (rewrite !length_insert; exact Hlen).
  cbv zeta. cbn [outcome nth fetched fst andb].
  unfold CONTROL_REG, ACCUM_CHARGE_MSB_REG, ACCUM_CHARGE_LSB_REG.
  rewrite (reg_at_insert_ne _ 1 2), (reg_at_insert_ne _ 3 2) by lia.
  rewrite (reg_at_insert_eq _ 2) by (rewrite ?length_insert; first [exact Hlen | lia]).
  rewrite (reg_at_insert_ne _ 1 3) by lia.
  rewrite (reg_at_insert_eq _ 3) by (rewrite ?length_insert; first [exact Hlen | lia]).
  reflexivity.
Qed.

Lemma capacity_zero_after_reset_witness :
  let rs := [0; 0x3C; 0x7F; 0xFF; 0; 0; 0; 0; 0; 0; 0; 0; 0; 0; 0; 0] in
  let w := snd (ltc_reset_charge mock_readWrite tt (boot rs [])) in
  fst (ltc_capacity mock_readWrite mock_usleep tt (5, 6) w) = (true, 0).
Proof.
  apply (capacity_zero_after_reset tt
           [0; 0x3C; 0x7F; 0xFF; 0; 0; 0; 0; 0; 0; 0; 0; 0; 0; 0; 0] (5, 6));
    reflexivity.
Defined.

(** X13: on a transport that succeeds, writing the bytes [m] and [l] to
    the charge-accumulator MSB and LSB registers with
    [ltc_writeRegister] and then calling [ltc_capacity] returns success
    and the code [256 * m + l]. *)
Theorem capacity_reads_written_accumulator
    {dev_id : Type} (id : dev_id) (rs : list Z) (m l : Z) (g : Z * Z) :
  chip_ok rs = true -> 0 <= m < 256 -> 0 <= l < 256 ->
  let w1 := snd (ltc_writeRegister mock_readWrite id ACCUM_CHARGE_MSB_REG m
                   (boot rs [])) in
  let w2 := snd (ltc_writeRegister mock_readWrite id ACCUM_CHARGE_LSB_REG l
                   w1) in
  fst (ltc_capacity mock_readWrite mock_usleep id g w2) = (true, m * 256 + l).
Proof.
  intros Hok Hm Hl. pose proof (chip_ok_length rs Hok) as Hlen.
  unfold boot, ACCUM_CHARGE_MSB_REG, ACCUM_CHARGE_LSB_REG. cbv zeta.
  rewrite write_step by first [assumption | lia]. cbn [hd tl snd].
  rewrite write_step by (rewrite ?length_insert; first [assumption | lia]).
  cbn [hd tl snd].
  rewrite capacity_run_from by (rewrite !length_insert; exact Hlen).
  cbv zeta. cbn [outcome nth fetched fst andb].
  unfold ACCUM_CHARGE_MSB_REG, ACCUM_CHARGE_LSB_REG.
  rewrite (reg_at_insert_ne _ 3 2) by lia.
  rewrite (reg_at_insert_eq _ 2) by first [exact Hlen | lia].
  rewrite (reg_at_insert_eq _ 3)
    by (rewrite ?length_insert; first [exact Hlen | lia]).
  rewrite u16_assemble by assumption. reflexivity.
Qed.

Lemma capacity_reads_written_accumulator_witness :
  let rs := [0; 0x3C; 0x7F; 0xFF; 0; 0; 0; 0; 0; 0; 0; 0; 0; 0; 0; 0] in
  let w1 := snd (ltc_writeRegister mock_readWrite tt ACCUM_CHARGE_MSB_REG 0xAB
                   (boot rs [])) in
  let w2 := snd (ltc_writeRegister mock_readWrite tt ACCUM_CHARGE_LSB_REG 0xCD
                   w1) in
  fst (ltc_capacity mock_readWrite mock_usleep tt (5, 6) w2)
  = (true, 0xAB * 256 + 0xCD).
Proof.
  apply (capacity_reads_written_accumulator tt
           [0; 0x3C; 0x7F; 0xFF; 0; 0; 0; 0; 0; 0; 0; 0; 0; 0; 0; 0]
           0xAB 0xCD (5, 6)); [reflexivity | lia | lia].
Defined.

(** ** More on the measured words *)

(** X10: when both reads succeed and the temperature MSB register holds
    less than 0x80, [ltc_temp] returns the raw code [256 * MSB + LSB]
    itself, a number from 0 to 32767. *)
Theorem temp_low_code_reads_raw
    {dev_id : Type} (id : dev_id) (rs : list Z) (g : Z * Z) :
  chip_ok rs = true ->
  reg_at rs TEMPERATURE_MSB_REG < 0x80 ->
  let r := fst (ltc_temp mock_readWrite mock_usleep id g (boot rs [])) in
  fst r = true
  /\ snd r = reg_at rs TEMPERATURE_MSB_REG * 256
             + reg_at rs TEMPERATURE_LSB_REG
  /\ 0 <= snd r < 32768.
Proof.
  intros Hok Hlow. cbv zeta.
  rewrite (temp_run id rs [] g Hok).
  cbn [outcome nth fetched fst snd andb].
  pose proof (chip_ok_byte rs TEMPERATURE_MSB_REG Hok
                ltac:(unfold TEMPERATURE_MSB_REG; lia)) as Hm.
  pose proof (chip_ok_byte rs TEMPERATURE_LSB_REG Hok
                ltac:(unfold TEMPERATURE_LSB_REG; lia)) as Hl.
  rewrite u16_assemble by assumption.
  set (raw := reg_at rs TEMPERATURE_MSB_REG * 256
              + reg_at rs TEMPERATURE_LSB_REG).
  assert (Hraw : 0 <= raw < 32768) by (unfold raw; lia).
  unfold i16. cbv zeta. rewrite Z.mod_small by lia.
  destruct (Z.ltb_spec raw 32768) as [_ | Hge]; [| lia].
  repeat split; lia.
Qed.

Lemma temp_low_code_reads_raw_witness :
  let rs := [0; 0x3C; 0x7F; 0xFF; 0; 0; 0; 0; 0x12; 0x34; 0; 0; 0x7F; 0xFF;
             0; 0] in
  let r := fst (ltc_temp mock_readWrite mock_usleep tt (5, 6) (boot rs [])) in
  fst r = true
  /\ snd r = 0x7F * 256 + 0xFF
  /\ 0 <= snd r < 32768.
Proof.
  apply (temp_low_code_reads_raw tt
           [0; 0x3C; 0x7F; 0xFF; 0; 0; 0; 0; 0x12; 0x34; 0; 0; 0x7F; 0xFF;
            0; 0] (5, 6)); reflexivity.
Defined.

Lemma split_word (m l : Z) :
  0 <= l < 256 -> (m * 256 + l) / 256 = m /\ (m * 256 + l) mod 256 = l.
Proof.
  intros Hl. split.
  - symmetry. apply (Z.div_unique _ _ m l); lia.
  - symmetry. apply (Z.mod_unique _ _ m l); lia.
Qed.

(** X11: when both reads succeed, nothing of the two register bytes is
    lost in the output: the MSB register is the output divided by 256
    and the LSB register is the output modulo 256, for the voltage and
    the charge outputs directly and for the temperature output once it
    is taken back to sixteen unsigned bits. *)
Theorem measurement_bytes_recoverable
    {dev_id : Type} (id : dev_id) (rs : list Z) (g : Z * Z) :
  chip_ok rs = true ->
  let v := snd (fst (ltc_code_to_voltage mock_readWrite mock_usleep id g
                       (boot rs []))) in
  let t := snd (fst (ltc_temp mock_readWrite mock_usleep id g (boot rs []))) in
  let q := snd (fst (ltc_capacity mock_readWrite mock_usleep id g
                       (boot rs []))) in
  (v / 256 = reg_at rs VOLTAGE_MSB_REG
   /\ v mod 256 = reg_at rs VOLTAGE_LSB_REG)
  /\ (u16 t / 256 = reg_at rs TEMPERATURE_MSB_REG
      /\ u16 t mod 256 = reg_at rs TEMPERATURE_LSB_REG)
  /\ (q / 256 = reg_at rs ACCUM_CHARGE_MSB_REG
      /\ q mod 256 = reg_at rs ACCUM_CHARGE_LSB_REG).
Proof.
  intros Hok. cbv zeta.
  rewrite (code_to_voltage_run id rs [] g Hok),
          (temp_run id rs [] g Hok), (capacity_run id rs [] g Hok).
  cbn [outcome nth fetched fst snd]. rewrite u16_i16, u16_idem.
  pose proof (fun r => chip_ok_byte rs r Hok) as Hb.
  unfold VOLTAGE_MSB_REG, VOLTAGE_LSB_REG, TEMPERATURE_MSB_REG,
    TEMPERATURE_LSB_REG, ACCUM_CHARGE_MSB_REG, ACCUM_CHARGE_LSB_REG.
  rewrite !u16_assemble by (apply Hb; lia).
  repeat split; apply split_word, Hb; lia.
Qed.

Lemma measurement_bytes_recoverable_witness :
  let rs := [0; 0x3C; 0x7F; 0xFF; 0; 0; 0; 0; 0x12; 0x34; 0; 0; 0x80; 0x01;
             0; 0] in
  let v := snd (fst (ltc_code_to_voltage mock_readWrite mock_usleep tt (5, 6)
                       (boot rs []))) in
  let t := snd (fst (ltc_temp mock_readWrite mock_usleep tt (5, 6)
                       (boot rs []))) in
  let q := snd (fst (ltc_capacity mock_readWrite mock_usleep tt (5, 6)
                       (boot rs []))) in
  (v / 256 = 0x12 /\ v mod 256 = 0x34)
  /\ (u16 t / 256 = 0x80 /\ u16 t mod 256 = 0x01)
  /\ (q / 256 = 0x7F /\ q mod 256 = 0xFF).
Proof.
  exact (measurement_bytes_recoverable tt
           [0; 0x3C; 0x7F; 0xFF; 0; 0; 0; 0; 0x12; 0x34; 0; 0; 0x80; 0x01;
            0; 0] (5, 6) eq_refl).
Defined.

(** ** Initialisation and the rest of the chip *)

(** X12: [ltc_init] touches the control register only.  When its write
    succeeds the control register holds the byte written whatever it
    held before; when the write fails no register changes; every other
    register keeps its value either way, and the delay follows the write
    in both cases. *)
Theorem init_frame
    {dev_id : Type} (id : dev_id) (rs : list Z) (s : list bool) :
  chip_ok rs = true ->
  let w := snd (ltc_init mock_readWrite mock_usleep id (boot rs s)) in
  (forall r : Z, 0 <= r < 16 -> r <> CONTROL_REG ->
                 reg_at (regs w) r = reg_at rs r)
  /\ (outcome s 0 = true -> reg_at (regs w) CONTROL_REG = 0xC8)
  /\ (outcome s 0 = false -> regs w = rs)
  /\ trace w = [Write CONTROL_REG 0xC8 (outcome s 0); Delay 1].
Proof.
  intros Hok. pose proof (chip_ok_length rs Hok) as Hlen.
  cbv zeta. rewrite init_run. cbv zeta. cbn [snd regs trace].
  rewrite (in_range_16 rs CONTROL_REG Hlen ltac:(unfold CONTROL_REG; lia)).
  rewrite andb_true_r.
  replace (hd true s) with (outcome s 0) by (destruct s; reflexivity).
  repeat split.
  - intros r Hr Hne. apply reg_at_written_ne; unfold CONTROL_REG in *; lia.
  - intros ->. apply reg_at_insert_eq; [exact Hlen | unfold CONTROL_REG; lia].
  - intros ->. reflexivity.
Qed.

Lemma init_frame_witness :
  let rs := [0; 0x3C; 0x7F; 0xFF; 0; 0; 0; 0; 0x12; 0x34; 0; 0; 0x80; 0x01;
             0; 0] in
  let w := snd (ltc_init mock_readWrite mock_usleep tt (boot rs [false])) in
  (forall r : Z, 0 <= r < 16 -> r <> CONTROL_REG ->
                 reg_at (regs w) r = reg_at rs r)
  /\ (false = true -> reg_at (regs w) CONTROL_REG = 0xC8)
  /\ (false = false -> regs w = rs)
  /\ trace w = [Write CONTROL_REG 0xC8 false; Delay 1].
Proof.
  exact (init_frame tt
           [0; 0x3C; 0x7F; 0xFF; 0; 0; 0; 0; 0x12; 0x34; 0; 0; 0x80; 0x01;
            0; 0] [false] eq_refl).
Defined.

(** ** Identification on a successful read *)

Lemma mask_top_bits (st : Z) :
  0 <= st < 256 -> (Z.land st 0xC0 =? DEVICE_ID) = (st <? 0x40).
Proof.
  intros Hst.
  assert (Hall : forallb
            (fun n => Bool.eqb (Z.land (Z.of_nat n) 0xC0 =? DEVICE_ID)
                        (Z.of_nat n <? 0x40))
            (seq 0 256) = true) by (vm_compute; reflexivity).
  rewrite forallb_forall in Hall.
  specialize (Hall (Z.to_nat st)).
  rewrite Z2Nat.id in Hall by lia.
  apply Bool.eqb_prop, Hall, in_seq. lia.
Qed.

(** X1: when the read of the status register succeeds,
    [ltc_readDeviceID] returns true exactly for the status bytes below
    0x40, those with bits 7 and 6 clear; the six low bits play no part,
    so two status bytes that differ only there get the same answer.  The
    call performs the one read and nothing else. *)
Theorem readDeviceID_accepts_low_status
    {dev_id : Type} (id : dev_id) (rs : list Z) (s : list bool) :
  chip_ok rs = true -> outcome s 0 = true ->
  let st := reg_at rs STATUS_REG in
  let r := ltc_readDeviceID mock_readWrite id (boot rs s) in
  (fst r = true <-> st < 0x40)
  /\ fst r = negb (Z.testbit st 7) && negb (Z.testbit st 6)
  /\ trace (snd r) = [Read STATUS_REG true].
Proof.
  intros Hok Hs. cbv zeta.
  pose proof (chip_ok_byte rs STATUS_REG Hok
                ltac:(unfold STATUS_REG; lia)) as Hst.
  rewrite (readDeviceID_run id rs s Hok), Hs. cbn [fst snd trace fetched].
  split; [| split; [apply top_two_bits; exact Hst | reflexivity]].
  rewrite mask_top_bits by exact Hst. apply Z.ltb_lt.
Qed.

Lemma readDeviceID_accepts_low_status_witness :
  let rs := [0x3F; 0x3C; 0; 0; 0; 0; 0; 0; 0; 0; 0; 0; 0; 0; 0; 0] in
  let r := ltc_readDeviceID mock_readWrite tt (boot rs []) in
  (fst r = true <-> 0x3F < 0x40)
  /\ fst r = negb (Z.testbit 0x3F 7) && negb (Z.testbit 0x3F 6)
  /\ trace (snd r) = [Read STATUS_REG true].
Proof.
  apply (readDeviceID_accepts_low_status tt
           [0x3F; 0x3C; 0; 0; 0; 0; 0; 0; 0; 0; 0; 0; 0; 0; 0; 0] []);
    reflexivity.
Defined.
